(** * protowhat: the tree-operating checks of [protowhat/checks/check_funcs.py]

    A shallow embedding of the guard [requires_ast] and of the five
    primitives [check_node], [check_field], [has_code], [has_equal_ast] and
    [has_parsed_ast], followed by the properties of the engine.

    Python values are a small inductive universe; raising and reporting are
    an error monad with a log of the messages handed to the Reporter. *)

From Stdlib Require Import String Ascii List ZArith Lia Bool DecimalString.
From Stdlib Require Import Relations.Relation_Operators.
Import ListNotations.
Local Open Scope string_scope.
Local Open Scope Z_scope.
Set Warnings "-register-all".

(** ** Python values and built-in operations *)

Module Py.

(** The values a State can focus on: [None], a string scalar, a list of
    values, an instance of the dispatcher's [ParseError] class, or an AST
    node (class name and named fields, in declaration order). *)
Inductive pyval : Type :=
| VNone
| VStr (s : string)
| VList (l : list pyval)
| VParseError
| VNode (cls : string) (fields : list (string * pyval)).

(** Exceptions that the checks raise or let through. [KeyError] and
    [ValueError] are what [str.format] raises on a template it rejects,
    [RegexError] is [re.error]. [TestFail] is the Reporter's abrupt exit; its
    payload is whatever was passed to [do_test] (which may be [None]). *)
Inductive exn : Type :=
| TypeError (msg : string)
| IndexError (msg : string)
| AttributeError (attr : string)
| UnboundLocalError (var : string)
| KeyError (key : string)
| ValueError (msg : string)
| RegexError (msg : string)
| TestFail (msg : option string).

Inductive result (A : Type) : Type :=
| Ret (a : A)
| Raise (e : exn).
Arguments Ret {A} a.
Arguments Raise {A} e.

(** [x is None] *)
Definition is_None (v : pyval) : bool :=
  match v with VNone => true | _ => false end.

(** [isinstance(x, ParseError)] *)
Definition isinstance_ParseError (v : pyval) : bool :=
  match v with VParseError => true | _ => false end.

(** [isinstance(x, str)] *)
Definition isinstance_str (v : pyval) : option string :=
  match v with VStr s => Some s | _ => None end.

(** [any(...)] over a list of booleans *)
Definition any (l : list bool) : bool := existsb (fun b => b) l.

(** Position denoted by a Python index in a sequence of length [n]:
    negative indices count from the end. *)
Definition norm_index (n : nat) (i : Z) : option nat :=
  if (0 <=? i) && (i <? Z.of_nat n) then Some (Z.to_nat i)
  else if (i <? 0) && (- Z.of_nat n <=? i) then Some (Z.to_nat (Z.of_nat n + i))
  else None.

(** [l[i]] on a list; [None] stands for [IndexError]. *)
Definition list_getitem {A : Type} (l : list A) (i : Z) : option A :=
  match norm_index (List.length l) i with
  | Some k => nth_error l k
  | None => None
  end.

(** [s[i]] on a string: the one-character string at that position. *)
Definition str_getitem (s : string) (i : Z) : option string :=
  match norm_index (String.length s) i with
  | Some k => match String.get k s with
              | Some c => Some (String c EmptyString)
              | None => None
              end
  | None => None
  end.

(** [v[i]]: lists and strings are subscriptable, nothing else is. *)
Definition getitem (v : pyval) (i : Z) : result pyval :=
  match v with
  | VList l =>
      match list_getitem l i with
      | Some x => Ret x
      | None => Raise (IndexError "list index out of range")
      end
  | VStr s =>
      match str_getitem s i with
      | Some x => Ret (VStr x)
      | None => Raise (IndexError "string index out of range")
      end
  | _ => Raise (TypeError "object is not subscriptable")
  end.

Fixpoint assoc (k : string) (fs : list (string * pyval)) : option pyval :=
  match fs with
  | [] => None
  | (k', v) :: fs' => if String.eqb k k' then Some v else assoc k fs'
  end.

(** [getattr(v, name)]: the fields of an AST node are its attributes; a
    field holding [None] is present, a missing field raises. *)
Definition getattr (v : pyval) (name : string) : result pyval :=
  match v with
  | VNode _ fs =>
      match assoc name fs with
      | Some x => Ret x
      | None => Raise (AttributeError name)
      end
  | _ => Raise (AttributeError name)
  end.

(** [small in big] on strings. *)
Fixpoint contains (small big : string) : bool :=
  String.prefix small big ||
  match big with
  | EmptyString => false
  | String _ rest => contains small rest
  end.

(** ["%s" % i] for an integer. *)
Definition str_of_int (i : Z) : string := NilZero.string_of_int (Z.to_int i).

(** [x or default] where [x] is a string or [None]: the empty string is
    falsy too. *)
Definition str_or (x : option string) (default : string) : string :=
  match x with
  | Some EmptyString => default
  | Some s => s
  | None => default
  end.

(** Truthiness of a string-or-None value. *)
Definition truthy (x : option string) : bool :=
  match x with
  | Some EmptyString => false
  | Some _ => true
  | None => false
  end.

End Py.
Import Py.

(** ** Raising and reporting *)

(** A computation yields the messages it handed to the Reporter, in order,
    and either a value or a raised exception. *)
Definition M (A : Type) : Type := (list (option string) * result A)%type.

Definition ret {A : Type} (a : A) : M A := ([], Ret a).
Definition raise {A : Type} (e : exn) : M A := ([], Raise e).
Definition lift {A : Type} (r : result A) : M A := ([], r).

Definition bind {A B : Type} (m : M A) (k : A -> M B) : M B :=
  match m with
  | (w, Ret a) => let '(w', r) := k a in ((w ++ w')%list, r)
  | (w, Raise e) => (w, Raise e)
  end.

Notation "x <- m ;; k" := (bind m (fun x => k))
  (at level 61, m at next level, right associativity).
Notation "m ;;; k" := (bind m (fun _ => k))
  (at level 61, right associativity).

(** [try: m except IndexError: raise e'] *)
Definition except_IndexError {A : Type} (m : result A) (e' : exn) : result A :=
  match m with
  | Raise (IndexError _) => Raise e'
  | _ => m
  end.

(** Reading a local variable that an abandoned [try] block may have left
    unassigned. *)
Definition read_local (name : string) (v : option pyval) : M pyval :=
  match v with
  | Some x => ret x
  | None => raise (UnboundLocalError name)
  end.

Definition reports {A : Type} (m : M A) : list (option string) := fst m.
Definition outcome {A : Type} (m : M A) : result A := snd m.

(** ** Dispatcher, Reporter and State *)

(** The interface of [state.ast_dispatcher] that [check_funcs.py] uses:
    calling it as [dispatcher(name, slice(None), node, priority=p)],
    [describe(node, msg, field=.., index=..)] which answers a message or
    [None], [ast.parse(sql, start)], and the [_get_text(code)] method of the
    node classes ([None] when the call raises). *)
Record Dispatcher : Type := {
  select : string -> option Z -> pyval -> list pyval;
  describe : pyval -> string -> option string -> option Z -> option string;
  parse : string -> string -> pyval;
  node_text : pyval -> string -> option string
}.

(** Modelled from the spec: the Reporter behind [State.do_test], which is
    not part of [check_funcs.py]. A reported failure must keep the rest of
    the chain from running, by an abrupt non-local exit or by returning a
    terminal state to the caller. *)
Inductive Reporter : Type := AbruptExit | ReturnsTerminal.

(** One navigation step as recorded in the history:
    [{'type': 'check_node', 'kwargs': {'name', 'index'}, 'node': stu_stmt}]
    or [{'type': 'check_field', 'kwargs': {'name', 'index'}}]. *)
Inductive Action : Type :=
| ActCheckNode (name : string) (index : Z) (node : pyval)
| ActCheckField (name : string) (index : option Z).

Record State : Type := {
  student_ast : pyval;
  solution_ast : pyval;
  student_code : string;
  solution_code : string;
  history : list Action;
  ast_dispatcher : Dispatcher;
  reporter : Reporter
}.

(** Modelled from the spec: [State.to_child], absent from the sources. A
    child State is a fresh State with the two focused values and the
    history replaced and everything else shared with its parent. *)
Definition to_child (st : State) (stu sol : pyval) (h : list Action) : State :=
  {| student_ast := stu;
     solution_ast := sol;
     student_code := student_code st;
     solution_code := solution_code st;
     history := h;
     ast_dispatcher := ast_dispatcher st;
     reporter := reporter st |}.

(** Modelled from the spec: [State.do_test(msg)] hands the message to the
    Reporter. With an abrupt exit it raises [TestFail]; otherwise it returns
    to the caller, which is free to ignore what it got back. *)
Definition do_test (st : State) (msg : option string) : M unit :=
  match reporter st with
  | AbruptExit => ([msg], Raise (TestFail msg))
  | ReturnsTerminal => ([msg], Ret tt)
  end.

(** [node._get_text(code)]: only AST nodes have the method. *)
Definition _get_text (d : Dispatcher) (v : pyval) (code : string) : result string :=
  match v with
  | VNode _ _ =>
      match node_text d v code with
      | Some s => Ret s
      | None => Raise (AttributeError "_get_text")
      end
  | _ => Raise (AttributeError "_get_text")
  end.

(** ** check_funcs.py *)

Definition MSG_CHECK_FALLBACK : string := "Your submission is incorrect. Try again!".

Definition requires_ast (f : State -> M State) (state : State) : M State :=
  let state_ast := [student_ast state; solution_ast state] in
  if any (map is_None state_ast)
  then raise (TypeError "Trying to use ast, but it is None. Are you using a parser?")
  else
    let parse_fail := any (map isinstance_ParseError state_ast) in
    if parse_fail then ret state else f state.

Definition check_node_missing_msg : string := "Could not find the {index}{node_name}.".

(** The function that [@requires_ast] decorates. *)
Definition check_node_body (state : State) (name : string) (index : Z)
    (missing_msg : string) (priority : option Z) : M State :=
  let df := select (ast_dispatcher state) name priority in
  let sol_stmt_list := df (solution_ast state) in
  match list_getitem sol_stmt_list index with
  | None =>
      raise (IndexError ("Can't get " ++ name ++ " statement at index " ++ str_of_int index))
  | Some sol_stmt =>
      let stu_stmt_list := df (student_ast state) in
      stu_stmt <-
        match list_getitem stu_stmt_list index with
        | Some x => ret (Some x)
        | None =>
            let _msg := describe (ast_dispatcher state) sol_stmt missing_msg None (Some index) in
            do_test state (Some (str_or _msg MSG_CHECK_FALLBACK)) ;;;
            ret None
        end ;;
      node <- read_local "stu_stmt" stu_stmt ;;
      let action := ActCheckNode name index node in
      ret (to_child state node sol_stmt (history state ++ [action])%list)
  end.

Definition check_node (state : State) (name : string) (index : Z)
    (missing_msg : string) (priority : option Z) : M State :=
  requires_ast (fun s => check_node_body s name index missing_msg priority) state.

Definition check_field_missing_msg : string :=
  "Could not find the {index}{field_name} of the {node_name}.".

(** [x = getattr(tree, name); if index is not None: x = x[index]] *)
Definition field_lookup (tree : pyval) (name : string) (index : option Z) : result pyval :=
  match getattr tree name with
  | Ret v => match index with
             | None => Ret v
             | Some i => getitem v i
             end
  | Raise e => Raise e
  end.

(** The student-side [try] block: what [stu_attr] is bound to when the
    block is left, and whether it was left by an exception. The attribute
    is assigned before it is indexed, so a failing index leaves the whole
    field value in the variable. *)
Definition stu_field_lookup (tree : pyval) (name : string) (index : option Z)
    : option pyval * bool :=
  match getattr tree name with
  | Raise _ => (None, true)
  | Ret v => match index with
             | None => (Some v, false)
             | Some i => match getitem v i with
                         | Ret w => (Some w, false)
                         | Raise _ => (Some v, true)
                         end
             end
  end.

Definition check_field_body (state : State) (name : string) (index : option Z)
    (missing_msg : string) : M State :=
  sol_attr <- lift (except_IndexError (field_lookup (solution_ast state) name index)
                      (IndexError ("Can't get " ++ name ++ " attribute"))) ;;
  let '(stu_local, raised) := stu_field_lookup (student_ast state) name index in
  (if raised
   then
     let _msg := describe (ast_dispatcher state) (student_ast state) missing_msg (Some name) index in
     do_test state (Some (str_or _msg MSG_CHECK_FALLBACK))
   else ret tt) ;;;
  stu_attr <- read_local "stu_attr" stu_local ;;
  (if is_None stu_attr && negb (is_None sol_attr)
   then
     let _msg := describe (ast_dispatcher state) (student_ast state) missing_msg (Some name) index in
     do_test state _msg
   else ret tt) ;;;
  let action := ActCheckField name index in
  ret (to_child state stu_attr sol_attr (history state ++ [action])%list).

Definition check_field (state : State) (name : string) (index : option Z)
    (missing_msg : string) : M State :=
  requires_ast (fun s => check_field_body s name index missing_msg) state.

Definition has_parsed_ast (state : State) : M State :=
  let asts := [student_ast state; solution_ast state] in
  (if any (map isinstance_ParseError asts)
   then do_test state (Some "AST did not parse")
   else ret tt) ;;;
  ret state.

Section TextChecks.

(** Python built-ins and the part of [State] that the two text-producing
    checks call. In [has_code], [msg.format(...)] is [format_template],
    which raises on a template it rejects, and [re.search(...)], read as a
    truth value, is [re_search], which raises on a pattern it rejects. In
    [has_equal_ast] the template is formatted by [str_format], a total
    function: what is proved of [has_equal_ast] is about the comparison, for
    templates that format. [repr] and [State.get_ast_path] are total. *)
Variable str_format : string -> list (string * string) -> string.
Variable format_template : string -> list (string * string) -> result string.
Variable re_search : string -> string -> result bool.
Variable repr : pyval -> string.
Variable get_ast_path : State -> string.

Definition has_code_msg : string :=
  "Check the {ast_path}. The checker expected to find {text}.".

Definition has_code (state : State) (text : string) (msg : string) (fixed : bool)
    : M State :=
  let stu_ast := student_ast state in
  let stu_code := student_code state in
  stu_text <- lift (if negb (isinstance_ParseError stu_ast)
                    then _get_text (ast_dispatcher state) stu_ast stu_code
                    else Ret stu_code) ;;
  _msg <- lift (format_template msg [("ast_path", get_ast_path state); ("text", text)]) ;;
  res <- lift (if fixed then Ret (contains text stu_text) else re_search text stu_text) ;;
  (if negb res then do_test state (Some _msg) else ret tt) ;;;
  ret state.

Definition has_equal_ast_msg : string := "Check the {ast_path}.{extra}".

Definition get_str (d : Dispatcher) (ast : pyval) (code : string) (sql : option string)
    : option string :=
  if truthy sql then sql
  else match isinstance_str ast with
       | Some s => Some s
       | None => match _get_text d ast code with
                 | Ret s => Some s
                 | Raise _ => None
                 end
       end.

Definition has_equal_ast_body (state : State) (msg : string) (sql : option string)
    (start : string) (exact : bool) : M State :=
  let sol_ast := match sql with
                 | None => solution_ast state
                 | Some s => parse (ast_dispatcher state) s start
                 end in
  let stu_rep := repr (student_ast state) in
  let sol_rep := repr sol_ast in
  let sol_str := get_str (ast_dispatcher state) (solution_ast state) (solution_code state) sql in
  let extra := if truthy sol_str
               then " The checker expected to find `" ++ str_or sol_str "" ++ "` in there."
               else "" in
  let _msg := str_format msg [("ast_path", get_ast_path state); ("extra", extra)] in
  (if exact && negb (String.eqb sol_rep stu_rep)
   then do_test state (Some (str_or (Some _msg) MSG_CHECK_FALLBACK))
   else if negb exact && negb (contains sol_rep stu_rep)
   then do_test state (Some (str_or (Some _msg) MSG_CHECK_FALLBACK))
   else ret tt) ;;;
  ret state.

Definition has_equal_ast (state : State) (msg : string) (sql : option string)
    (start : string) (exact : bool) : M State :=
  requires_ast (fun s => has_equal_ast_body s msg sql start exact) state.

End TextChecks.

(** ** Vocabulary of the properties *)

(** A tree that is present and is not a Parse Error marker. *)
Definition parsed (v : pyval) : Prop := v <> VNone /\ v <> VParseError.

(** A student-facing failure: the check handed exactly [msg] to the
    Reporter, and the Reporter's abrupt exit, where it has one, is the
    outcome of the check. *)
Definition student_failure (st : State) (msg : option string) (m : M State) : Prop :=
  reports m = [msg] /\ (reporter st = AbruptExit -> outcome m = Raise (TestFail msg)).

(** An authoring error: an exception that is not the Reporter's. *)
Definition authoring_error (e : exn) : Prop :=
  match e with TestFail _ => False | _ => True end.

(** The two narrowing primitives with their arguments. *)
Inductive Narrowing : Type :=
| CheckNode (name : string) (index : Z) (missing_msg : string) (priority : option Z)
| CheckField (name : string) (index : option Z) (missing_msg : string).

Definition run (n : Narrowing) (st : State) : M State :=
  match n with
  | CheckNode name index missing_msg priority => check_node st name index missing_msg priority
  | CheckField name index missing_msg => check_field st name index missing_msg
  end.

(** A narrowing step succeeds when the guard lets it through and it
    returns a State without reporting anything. *)
Definition narrows (st : State) (n : Narrowing) (st' : State) : Prop :=
  parsed (student_ast st) /\ parsed (solution_ast st) /\ run n st = ([], Ret st').

Inductive narrows_star : State -> list Narrowing -> State -> Prop :=
| narrows_nil st : narrows_star st [] st
| narrows_cons st n st' ns st'' :
    narrows st n st' -> narrows_star st' ns st'' -> narrows_star st (n :: ns) st''.

Definition default_priority (n : Narrowing) : Prop :=
  match n with
  | CheckNode _ _ _ priority => priority = None
  | CheckField _ _ _ => True
  end.

(** Replaying a recorded Action: the primitive named by its ['type'],
    called with its recorded ['kwargs'] and nothing else. *)
Definition replay_action (a : Action) (st : State) : M State :=
  match a with
  | ActCheckNode name index _ => check_node st name index check_node_missing_msg None
  | ActCheckField name index => check_field st name index check_field_missing_msg
  end.

Fixpoint replay (h : list Action) (st : State) : M State :=
  match h with
  | [] => ret st
  | a :: h' => st' <- replay_action a st ;; replay h' st'
  end.

(** Immediate sub-values of a value, and the sub-tree order they generate. *)
Inductive child : pyval -> pyval -> Prop :=
| child_item l t : In t l -> child t (VList l)
| child_field cls fs k t : In (k, t) fs -> child t (VNode cls fs).

Definition subtree : pyval -> pyval -> Prop := clos_refl_trans_n1 pyval child.

(** Index fidelity of [check_node] in its weakest reading, on a State
    whose solution tree has [k] sub-nodes of the requested type: every index
    below [k] at which the student lookup succeeds too gives the child State
    focused on the two nodes at that index, and every index from [k] on is
    an authoring error of some kind, with nothing reported. Even this fails
    on a State that the guard skips. *)
Definition index_fidelity (st : State) (name msg : string) (priority : option Z)
    (k : nat) : Prop :=
  let sols := select (ast_dispatcher st) name priority (solution_ast st) in
  let stus := select (ast_dispatcher st) name priority (student_ast st) in
  (forall i stu_i,
      0 <= i < Z.of_nat k ->
      nth_error stus (Z.to_nat i) = Some stu_i ->
      exists sol_i,
        nth_error sols (Z.to_nat i) = Some sol_i /\
        check_node st name i msg priority =
        ([], Ret (to_child st stu_i sol_i
                    (history st ++ [ActCheckNode name i stu_i])%list)))
  /\ (forall i,
         i >= Z.of_nat k ->
         exists e,
           check_node st name i msg priority = ([], Raise e) /\ authoring_error e).

(** The diagnostic that [check_field] asks the dispatcher for, in both of
    its failure branches. *)
Definition field_diagnostic (st : State) (name : string) (index : option Z)
    (msg : string) : option string :=
  describe (ast_dispatcher st) (student_ast st) msg (Some name) index.

(** A check halts cleanly when the only exception it lets out is the
    Reporter's. *)
Definition halts_cleanly (m : M State) : Prop :=
  forall e, outcome m = Raise e -> exists msg, e = TestFail msg.

(** The narrowing primitives tolerate the Reporter of a State: whenever
    the solution-side lookup succeeds and the student-side one fails, the
    check halts cleanly. *)
Definition tolerates_reporter (st : State) : Prop :=
  (forall name index msg priority sol_i,
      list_getitem (select (ast_dispatcher st) name priority (solution_ast st)) index
        = Some sol_i ->
      list_getitem (select (ast_dispatcher st) name priority (student_ast st)) index
        = None ->
      halts_cleanly (check_node st name index msg priority))
  /\ (forall name index msg sol_v e,
         field_lookup (solution_ast st) name index = Ret sol_v ->
         field_lookup (student_ast st) name index = Raise e ->
         halts_cleanly (check_field st name index msg)).

(** [s] occurs in [t]: what [s in t] decides. *)
Definition substr (s t : string) : Prop := exists a b, t = a ++ s ++ b.

(** What [has_equal_ast] compares the student focus with: the solution
    focus, or the parse of the snippet when one is given. *)
Definition comparison_target (st : State) (sql : option string) (start : string) : pyval :=
  match sql with
  | None => solution_ast st
  | Some s => parse (ast_dispatcher st) s start
  end.

(** Path accumulation along a chain of [steps] that led from [root] to
    [final]: the history has one Action per step, and replaying it from
    [root] ends on the two focused values of [final]. *)
Definition path_accumulation (root : State) (steps : list Narrowing) (final : State)
    : Prop :=
  List.length (history final) = List.length steps
  /\ exists st_r,
       outcome (replay (history final) root) = Ret st_r
       /\ student_ast st_r = student_ast final
       /\ solution_ast st_r = solution_ast final.

(** ** A small dispatcher and some States to run the checks on *)

Module Demo.

Definition children (v : pyval) : list pyval :=
  match v with
  | VNode _ fs =>
      flat_map (fun kv => match snd kv with VList l => l | x => [x] end) fs
  | VList l => l
  | _ => []
  end.

Definition has_cls (name : string) (v : pyval) : bool :=
  match v with VNode cls _ => String.eqb cls name | _ => false end.

(** Without a priority only the sub-nodes right below the tree are
    searched; with one, the search goes one level further down. *)
Definition search (name : string) (priority : option Z) (v : pyval) : list pyval :=
  filter (has_cls name)
    (match priority with
     | None => children v
     | Some _ => flat_map (fun c => c :: children c) (children v)
     end).

Definition explain (node : pyval) (msg : string) (field : option string)
    (index : option Z) : option string :=
  match node with
  | VNode cls _ => Some (msg ++ " (" ++ cls ++ ")")
  | _ => None
  end.

Fixpoint repr (v : pyval) : string :=
  match v with
  | VNone => "None"
  | VStr s => "'" ++ s ++ "'"
  | VList l => "[" ++ String.concat ", " (map repr l) ++ "]"
  | VParseError => "ParseError()"
  | VNode cls fs =>
      cls ++ "(" ++
      String.concat ", "
        (map (fun kv => match kv with (k, x) => k ++ " = " ++ repr x end) fs) ++ ")"
  end.

Definition disp : Dispatcher :=
  {| select := search;
     describe := explain;
     parse := fun sql _ => VStr sql;
     node_text := fun _ code => Some code |}.

Definition str_format (msg : string) (kw : list (string * string)) : string :=
  msg ++ String.concat "" (map (fun kv => " " ++ fst kv ++ "=" ++ snd kv) kw).

Definition get_ast_path (st : State) : string := "script".

Definition sel_a : pyval :=
  VNode "SelectStmt" [("target_list", VList [VStr "a"]); ("from_clause", VStr "b")].
Definition sel_x : pyval :=
  VNode "SelectStmt" [("target_list", VList [VStr "x"]); ("from_clause", VNone)].
Definition wrap : pyval := VNode "Subquery" [("inner", sel_a)].
Definition script_one : pyval := VNode "Script" [("body", VList [sel_a])].
Definition script_none : pyval := VNode "Script" [("body", VList [])].
Definition script_nested : pyval := VNode "Script" [("body", VList [wrap; sel_x])].

Definition mk (stu sol : pyval) (r : Reporter) : State :=
  {| student_ast := stu; solution_ast := sol;
     student_code := "SELECT a FROM b"; solution_code := "SELECT a FROM b";
     history := []; ast_dispatcher := disp; reporter := r |}.

(** A formatter that rejects the templates naming the unknown field
    [x], as [str.format] does with [KeyError]. *)
Definition format_template (msg : string) (kw : list (string * string))
    : result string :=
  if contains "{x}" msg then Raise (KeyError "x") else Ret (str_format msg kw).

(** A pattern search for patterns without special characters. *)
Definition re_search (pattern text : string) : result bool :=
  Ret (contains pattern text).

(** A dispatcher whose [describe] has nothing to say. *)
Definition quiet : Dispatcher :=
  {| select := search;
     describe := fun _ _ _ _ => None;
     parse := fun sql _ => VStr sql;
     node_text := fun _ code => Some code |}.

Definition mk_quiet (stu sol : pyval) : State :=
  {| student_ast := stu; solution_ast := sol;
     student_code := "SELECT a FROM b"; solution_code := "SELECT a FROM b";
     history := []; ast_dispatcher := quiet; reporter := AbruptExit |}.

(** A [repr] in the manner of [object.__repr__] for nodes: the class
    name and nothing of the fields. *)
Definition object_repr (v : pyval) : string :=
  match v with
  | VNode cls _ => "<" ++ cls ++ " object>"
  | other => repr other
  end.

End Demo.

(** ** Basic facts about the built-ins *)

Lemma is_None_false (v : pyval) : v <> VNone -> is_None v = false.
Proof. destruct v; simpl; congruence. Qed.

Lemma isinstance_ParseError_false (v : pyval) :
  v <> VParseError -> isinstance_ParseError v = false.
Proof. destruct v; simpl; congruence. Qed.

Lemma isinstance_ParseError_true (v : pyval) :
  isinstance_ParseError v = true <-> v = VParseError.
Proof. destruct v; simpl; split; congruence. Qed.

Lemma parsed_flags (v : pyval) :
  parsed v -> is_None v = false /\ isinstance_ParseError v = false.
Proof.
  intros [Hn Hp]. split.
  - now apply is_None_false.
  - now apply isinstance_ParseError_false.
Qed.

Lemma list_getitem_in_range {A : Type} (l : list A) (i : Z) :
  0 <= i < Z.of_nat (List.length l) ->
  list_getitem l i = nth_error l (Z.to_nat i).
Proof.
  intros [Hlo Hhi]. unfold list_getitem, norm_index.
  apply Z.leb_le in Hlo. apply Z.ltb_lt in Hhi.
  now rewrite Hlo, Hhi.
Qed.

Lemma list_getitem_beyond {A : Type} (l : list A) (i : Z) :
  i >= Z.of_nat (List.length l) -> list_getitem l i = None.
Proof.
  intros Hge. unfold list_getitem, norm_index.
  destruct (Z.ltb_spec i (Z.of_nat (List.length l))); [lia|].
  destruct (Z.ltb_spec i 0); [lia|].
  rewrite !andb_false_r. reflexivity.
Qed.

Lemma list_getitem_some_in {A : Type} (l : list A) (i : Z) (x : A) :
  list_getitem l i = Some x -> In x l.
Proof.
  unfold list_getitem. destruct (norm_index _ _); [|discriminate].
  apply nth_error_In.
Qed.

(** ** Strings *)

Lemma append_assoc (a b c : string) : (a ++ b) ++ c = a ++ (b ++ c).
Proof. induction a as [|x a IH]; simpl; [reflexivity | now rewrite IH]. Qed.

Lemma append_nil_r (a : string) : a ++ "" = a.
Proof. induction a as [|x a IH]; simpl; [reflexivity | now rewrite IH]. Qed.

Lemma prefix_spec (s t : string) :
  String.prefix s t = true <-> exists b, t = s ++ b.
Proof.
  revert t. induction s as [|x s IH]; intros t.
  - split; [intros _; exists t; reflexivity | intros _; destruct t; reflexivity].
  - destruct t as [|y t]; simpl.
    + split; [discriminate | intros [b Hb]; discriminate].
    + destruct (ascii_dec x y) as [->|Hxy].
      * rewrite IH. split; intros [b Hb]; exists b; congruence.
      * split; [discriminate | intros [b Hb]; congruence].
Qed.

Lemma contains_unfold (s t : string) :
  contains s t =
  String.prefix s t || match t with
                       | EmptyString => false
                       | String _ rest => contains s rest
                       end.
Proof. destruct t; reflexivity. Qed.

Lemma contains_spec (s t : string) : contains s t = true <-> substr s t.
Proof.
  split.
  - induction t as [|c t IH]; rewrite contains_unfold; intros H;
      apply orb_true_iff in H; destruct H as [H | H]; try discriminate.
    + apply prefix_spec in H. destruct H as [b Hb]. exists "", b. exact Hb.
    + apply prefix_spec in H. destruct H as [b Hb]. exists "", b. exact Hb.
    + destruct (IH H) as [a [b Hab]]. exists (String c a), b. simpl. now rewrite Hab.
  - intros [a [b Hab]]. subst t. induction a as [|c a IH]; simpl.
    + rewrite contains_unfold. apply orb_true_iff. left.
      apply prefix_spec. now exists b.
    + apply orb_true_iff. right. exact IH.
Qed.

Lemma substr_refl (s : string) : substr s s.
Proof. exists "", "". simpl. now rewrite append_nil_r. Qed.

Lemma substr_trans (a b c : string) : substr a b -> substr b c -> substr a c.
Proof.
  intros [x [y Hb]] [u [v Hc]]. subst. exists (u ++ x), (y ++ v).
  now rewrite !append_assoc.
Qed.

Lemma substr_app_l (s t u : string) : substr s t -> substr s (u ++ t).
Proof.
  intros [a [b H]]. subst. exists (u ++ a), b. now rewrite !append_assoc.
Qed.

Lemma substr_app_r (s t u : string) : substr s t -> substr s (t ++ u).
Proof.
  intros [a [b H]]. subst. exists a, (b ++ u). now rewrite !append_assoc.
Qed.

Lemma substr_concat (sep x : string) (l : list string) :
  In x l -> substr x (String.concat sep l).
Proof.
  induction l as [|y l IH]; [contradiction|].
  intros [-> | Hin].
  - destruct l; simpl; [apply substr_refl | apply substr_app_r, substr_refl].
  - specialize (IH Hin). destruct l as [|z l]; [contradiction|].
    change (String.concat sep (y :: z :: l))
      with (y ++ sep ++ String.concat sep (z :: l)).
    now apply substr_app_l, substr_app_l.
Qed.

Lemma contains_trans (a b c : string) :
  contains a b = true -> contains b c = true -> contains a c = true.
Proof. rewrite !contains_spec. apply substr_trans. Qed.

(** ** The guard *)

Lemma requires_ast_admits (f : State -> M State) (st : State) :
  parsed (student_ast st) -> parsed (solution_ast st) ->
  requires_ast f st = f st.
Proof.
  intros Hs Ht.
  destruct (parsed_flags _ Hs) as [Hs1 Hs2].
  destruct (parsed_flags _ Ht) as [Ht1 Ht2].
  unfold requires_ast. simpl. now rewrite Hs1, Hs2, Ht1, Ht2.
Qed.

Lemma requires_ast_skips (f : State -> M State) (st : State) :
  student_ast st <> VNone -> solution_ast st <> VNone ->
  student_ast st = VParseError \/ solution_ast st = VParseError ->
  requires_ast f st = ([], Ret st).
Proof.
  intros Hs Ht Hpe. unfold requires_ast. simpl.
  rewrite (is_None_false _ Hs), (is_None_false _ Ht). simpl.
  destruct Hpe as [E | E]; rewrite E; simpl.
  - reflexivity.
  - now rewrite orb_true_r.
Qed.

(** C1. The guard is a three-way case split. With a tree that is [None] it
    raises the same [TypeError] whatever the wrapped primitive is; otherwise,
    with a Parse Error on either side, it returns the State it was given and
    reports nothing, again whatever the primitive; otherwise its result is
    the wrapped primitive's. The three guarded checks are the guard applied
    to their bodies. *)
Theorem requires_ast_three_way (f : State -> M State) (st : State) :
  (student_ast st = VNone \/ solution_ast st = VNone ->
   requires_ast f st =
   ([], Raise (TypeError "Trying to use ast, but it is None. Are you using a parser?")))
  /\ (student_ast st <> VNone -> solution_ast st <> VNone ->
      student_ast st = VParseError \/ solution_ast st = VParseError ->
      requires_ast f st = ([], Ret st))
  /\ (parsed (student_ast st) -> parsed (solution_ast st) ->
      requires_ast f st = f st)
  /\ (forall name index msg priority,
        check_node st name index msg priority =
        requires_ast (fun s => check_node_body s name index msg priority) st)
  /\ (forall name index msg,
        check_field st name index msg =
        requires_ast (fun s => check_field_body s name index msg) st)
  /\ (forall str_format repr get_ast_path msg sql start exact,
        has_equal_ast str_format repr get_ast_path st msg sql start exact =
        requires_ast
          (fun s => has_equal_ast_body str_format repr get_ast_path s msg sql start exact) st).
Proof.
  repeat split.
  - intros [E | E]; unfold requires_ast; simpl; rewrite E; simpl.
    + reflexivity.
    + now rewrite orb_true_r.
  - apply requires_ast_skips.
  - apply requires_ast_admits.
Qed.

Lemma requires_ast_three_way_witness :
  requires_ast (fun s => has_parsed_ast s) (Demo.mk VNone Demo.script_one AbruptExit) =
    ([], Raise (TypeError "Trying to use ast, but it is None. Are you using a parser?"))
  /\ requires_ast (fun s => raise (TypeError "never run"))
       (Demo.mk VParseError Demo.script_one AbruptExit) =
     ([], Ret (Demo.mk VParseError Demo.script_one AbruptExit))
  /\ requires_ast has_parsed_ast (Demo.mk Demo.script_one Demo.script_one AbruptExit) =
     has_parsed_ast (Demo.mk Demo.script_one Demo.script_one AbruptExit).
Proof.
  split; [|split].
  - apply (requires_ast_three_way (fun s => has_parsed_ast s)
             (Demo.mk VNone Demo.script_one AbruptExit)).
    left. reflexivity.
  - apply (requires_ast_three_way (fun s => raise (TypeError "never run"))
             (Demo.mk VParseError Demo.script_one AbruptExit)).
    + discriminate.
    + discriminate.
    + left. reflexivity.
  - apply (requires_ast_three_way has_parsed_ast
             (Demo.mk Demo.script_one Demo.script_one AbruptExit));
      split; discriminate.
Defined.

(** ** Node selection *)

Section CheckNode.

Variables (st : State) (name : string) (index : Z) (msg : string)
          (priority : option Z).

Let sols := select (ast_dispatcher st) name priority (solution_ast st).
Let stus := select (ast_dispatcher st) name priority (student_ast st).

Lemma check_node_body_found (sol_i stu_i : pyval) :
  list_getitem sols index = Some sol_i ->
  list_getitem stus index = Some stu_i ->
  check_node_body st name index msg priority =
  ([], Ret (to_child st stu_i sol_i (history st ++ [ActCheckNode name index stu_i])%list)).
Proof.
  intros Hsol Hstu. unfold check_node_body.
  fold sols. rewrite Hsol. fold stus. rewrite Hstu. reflexivity.
Qed.

Lemma check_node_body_solution_missing :
  list_getitem sols index = None ->
  check_node_body st name index msg priority =
  ([], Raise (IndexError ("Can't get " ++ name ++ " statement at index "
                            ++ str_of_int index))).
Proof.
  intros Hsol. unfold check_node_body. fold sols. now rewrite Hsol.
Qed.

Lemma check_node_body_student_missing (sol_i : pyval) :
  list_getitem sols index = Some sol_i ->
  list_getitem stus index = None ->
  check_node_body st name index msg priority =
  (let m := Some (str_or (describe (ast_dispatcher st) sol_i msg None (Some index))
                    MSG_CHECK_FALLBACK) in
   ([m], match reporter st with
         | AbruptExit => Raise (TestFail m)
         | ReturnsTerminal => Raise (UnboundLocalError "stu_stmt")
         end)).
Proof.
  intros Hsol Hstu. unfold check_node_body.
  fold sols. rewrite Hsol. fold stus. rewrite Hstu.
  unfold do_test. destruct (reporter st); reflexivity.
Qed.

End CheckNode.

Lemma nth_error_list_getitem {A : Type} (l : list A) (i : Z) (x : A) :
  0 <= i -> nth_error l (Z.to_nat i) = Some x -> list_getitem l i = Some x.
Proof.
  intros Hi Hn.
  assert (Hlt : (Z.to_nat i < List.length l)%nat).
  { apply nth_error_Some. congruence. }
  rewrite list_getitem_in_range by lia. exact Hn.
Qed.

(** C2, as amended. On a State whose two trees are present and parsed and
    whose solution tree has [k] sub-nodes of the requested type,
    [check_node] gives the child State focused on the nodes at index [i]
    for [0 <= i < k] when the student lookup succeeds too, and for every
    [i >= k] raises the [IndexError] that names the type and the index,
    reporting nothing. *)
Theorem check_node_index_fidelity (st : State) (name msg : string)
    (priority : option Z) (k : nat) :
  parsed (student_ast st) -> parsed (solution_ast st) ->
  List.length (select (ast_dispatcher st) name priority (solution_ast st)) = k ->
  let sols := select (ast_dispatcher st) name priority (solution_ast st) in
  let stus := select (ast_dispatcher st) name priority (student_ast st) in
  (forall i stu_i,
      0 <= i < Z.of_nat k ->
      nth_error stus (Z.to_nat i) = Some stu_i ->
      exists sol_i,
        nth_error sols (Z.to_nat i) = Some sol_i /\
        check_node st name i msg priority =
        ([], Ret (to_child st stu_i sol_i
                    (history st ++ [ActCheckNode name i stu_i])%list)))
  /\ (forall i,
         i >= Z.of_nat k ->
         check_node st name i msg priority =
         ([], Raise (IndexError ("Can't get " ++ name ++ " statement at index "
                                   ++ str_of_int i)))).
Proof.
  intros Hs Ht Hk sols stus. split.
  - intros i stu_i Hi Hstu.
    destruct (nth_error sols (Z.to_nat i)) as [sol_i|] eqn:Hsol.
    + exists sol_i. split; [reflexivity|].
      unfold check_node. rewrite requires_ast_admits by assumption.
      apply check_node_body_found; apply nth_error_list_getitem; (lia || assumption).
    + apply nth_error_None in Hsol. unfold sols in Hsol. lia.
  - intros i Hi.
    unfold check_node. rewrite requires_ast_admits by assumption.
    apply check_node_body_solution_missing.
    apply list_getitem_beyond. lia.
Qed.

Lemma check_node_index_fidelity_witness :
  let st := Demo.mk Demo.script_one Demo.script_one AbruptExit in
  (exists sol_i,
     nth_error [Demo.sel_a] 0 = Some sol_i /\
     check_node st "SelectStmt" 0 check_node_missing_msg None =
     ([], Ret (to_child st Demo.sel_a sol_i [ActCheckNode "SelectStmt" 0 Demo.sel_a])))
  /\ check_node st "SelectStmt" 7 check_node_missing_msg None =
     ([], Raise (IndexError "Can't get SelectStmt statement at index 7")).
Proof.
  intros st.
  destruct (check_node_index_fidelity st "SelectStmt" check_node_missing_msg None 1)
    as [Hin Hout].
  - split; discriminate.
  - split; discriminate.
  - reflexivity.
  - split.
    + apply (Hin 0 Demo.sel_a); [lia | reflexivity].
    + apply (Hout 7). lia.
Defined.

(** C2, as stated, fails: the solution has no [SelectStmt] and the student
    code did not parse; [check_node] at index 0 returns the State it was
    given instead of raising. *)
Lemma check_node_index_fidelity_counterexample :
  let st := Demo.mk VParseError Demo.script_none AbruptExit in
  List.length (select (ast_dispatcher st) "SelectStmt" None (solution_ast st)) = 0%nat
  /\ check_node st "SelectStmt" 0 check_node_missing_msg None = ([], Ret st)
  /\ ~ index_fidelity st "SelectStmt" check_node_missing_msg None 0.
Proof.
  simpl. split; [reflexivity|]. split; [reflexivity|].
  intros [_ H]. destruct (H 0 ltac:(lia)) as [e [He _]].
  discriminate He.
Qed.

(** C8. When the solution-side lookup of [check_node] succeeds and the
    index is out of range in the student-side node list, the message is what
    [describe] makes of the missing-message template for the solution node,
    or the generic fallback when [describe] yields nothing; it is reported
    through the Reporter and no child State is returned. This holds of the
    primitive itself and of the guarded check on every State that the guard
    lets through. *)
Theorem check_node_student_missing (st : State) (name : string) (index : Z)
    (msg : string) (priority : option Z) (sol_i : pyval) :
  list_getitem (select (ast_dispatcher st) name priority (solution_ast st)) index
    = Some sol_i ->
  list_getitem (select (ast_dispatcher st) name priority (student_ast st)) index
    = None ->
  let m := Some (str_or (describe (ast_dispatcher st) sol_i msg None (Some index))
                   MSG_CHECK_FALLBACK) in
  (student_failure st m (check_node_body st name index msg priority)
   /\ forall st', outcome (check_node_body st name index msg priority) <> Ret st')
  /\ (parsed (student_ast st) -> parsed (solution_ast st) ->
      student_failure st m (check_node st name index msg priority)
      /\ forall st', outcome (check_node st name index msg priority) <> Ret st')
  /\ (describe (ast_dispatcher st) sol_i msg None (Some index) = None ->
      m = Some MSG_CHECK_FALLBACK).
Proof.
  intros Hsol Hstu m.
  assert (Hbody :
    student_failure st m (check_node_body st name index msg priority)
    /\ forall st', outcome (check_node_body st name index msg priority) <> Ret st').
  { rewrite (check_node_body_student_missing _ _ _ _ _ _ Hsol Hstu).
    fold m. unfold student_failure. simpl. split; [split|].
    - reflexivity.
    - intros ->. reflexivity.
    - intros st'. destruct (reporter st); discriminate. }
  split; [exact Hbody|]. split.
  - intros Hs Ht. unfold check_node. rewrite requires_ast_admits by assumption.
    exact Hbody.
  - intros Hd. unfold m. now rewrite Hd.
Qed.

Lemma check_node_student_missing_witness :
  let st := Demo.mk Demo.script_none Demo.script_one AbruptExit in
  check_node st "SelectStmt" 0 check_node_missing_msg None =
  ([Some "Could not find the {index}{node_name}. (SelectStmt)"],
   Raise (TestFail (Some "Could not find the {index}{node_name}. (SelectStmt)"))).
Proof.
  intros st.
  destruct (check_node_student_missing st "SelectStmt" 0 check_node_missing_msg None
              Demo.sel_a eq_refl eq_refl) as [_ [H _]].
  destruct H as [[Hr Ho] _]; [split; discriminate | split; discriminate |].
  specialize (Ho eq_refl).
  destruct (check_node st "SelectStmt" 0 check_node_missing_msg None) as [w r].
  simpl in Hr, Ho. now rewrite Hr, Ho.
Defined.

(** ** The parse-success check *)

(** C5. [has_parsed_ast] runs on every State, absent trees included. It
    reports the fixed message exactly when the student tree or the solution
    tree is a Parse Error marker, and otherwise returns the State it was
    given. *)
Theorem has_parsed_ast_reports_iff (st : State) :
  (student_ast st = VParseError \/ solution_ast st = VParseError ->
   student_failure st (Some "AST did not parse") (has_parsed_ast st))
  /\ (~ (student_ast st = VParseError \/ solution_ast st = VParseError) ->
      has_parsed_ast st = ([], Ret st))
  /\ (reports (has_parsed_ast st) <> [] <->
      student_ast st = VParseError \/ solution_ast st = VParseError).
Proof.
  unfold has_parsed_ast, student_failure, do_test. simpl.
  destruct (isinstance_ParseError (student_ast st)) eqn:Es;
    destruct (isinstance_ParseError (solution_ast st)) eqn:Et; simpl;
    try apply isinstance_ParseError_true in Es;
    try apply isinstance_ParseError_true in Et.
  1-3: repeat split; try tauto; try discriminate;
       try (intros ->; reflexivity);
       destruct (reporter st); simpl; try discriminate; tauto.
  assert (Hs : student_ast st <> VParseError).
  { intros E. apply isinstance_ParseError_true in E. congruence. }
  assert (Ht : solution_ast st <> VParseError).
  { intros E. apply isinstance_ParseError_true in E. congruence. }
  repeat split; try tauto.
Qed.

(** ** Field selection *)

Lemma getattr_parsed (t : pyval) (name : string) (v : pyval) :
  getattr t name = Ret v -> parsed t.
Proof. destruct t; simpl; try discriminate. intros _. split; discriminate. Qed.

Lemma field_lookup_parsed (t : pyval) (name : string) (index : option Z) (v : pyval) :
  field_lookup t name index = Ret v -> parsed t.
Proof.
  unfold field_lookup. destruct (getattr t name) eqn:E; [|discriminate].
  intros _. eapply getattr_parsed. exact E.
Qed.

Lemma stu_field_lookup_found (t : pyval) (name : string) (index : option Z) (v : pyval) :
  field_lookup t name index = Ret v ->
  stu_field_lookup t name index = (Some v, false).
Proof.
  unfold field_lookup, stu_field_lookup.
  destruct (getattr t name); [|discriminate].
  destruct index; [|congruence].
  destruct (getitem a z); [congruence|discriminate].
Qed.

(** When the student-side [try] block is left by an exception, [stu_attr]
    is unassigned if the attribute is missing, and holds the whole field
    value if only the index failed. *)
Lemma stu_field_lookup_failed (t : pyval) (name : string) (index : option Z) (e : exn) :
  field_lookup t name index = Raise e ->
  stu_field_lookup t name index =
  (match getattr t name with Ret v => Some v | Raise _ => None end, true).
Proof.
  unfold field_lookup, stu_field_lookup.
  destruct (getattr t name); [|reflexivity].
  destruct index; [|discriminate].
  destruct (getitem a z); [discriminate|reflexivity].
Qed.

Section CheckField.

Variables (st : State) (name : string) (index : option Z) (msg : string).

Lemma check_field_body_found (sol_v stu_v : pyval) :
  field_lookup (solution_ast st) name index = Ret sol_v ->
  field_lookup (student_ast st) name index = Ret stu_v ->
  is_None stu_v && negb (is_None sol_v) = false ->
  check_field_body st name index msg =
  ([], Ret (to_child st stu_v sol_v (history st ++ [ActCheckField name index])%list)).
Proof.
  intros Hsol Hstu Hnone. unfold check_field_body.
  rewrite Hsol, (stu_field_lookup_found _ _ _ _ Hstu). simpl.
  rewrite Hnone. reflexivity.
Qed.

Lemma check_field_body_student_none (sol_v : pyval) :
  field_lookup (solution_ast st) name index = Ret sol_v ->
  field_lookup (student_ast st) name index = Ret VNone ->
  sol_v <> VNone ->
  check_field_body st name index msg =
  (let d := field_diagnostic st name index msg in
   ([d], match reporter st with
         | AbruptExit => Raise (TestFail d)
         | ReturnsTerminal =>
             Ret (to_child st VNone sol_v (history st ++ [ActCheckField name index])%list)
         end)).
Proof.
  intros Hsol Hstu Hnone. unfold check_field_body.
  rewrite Hsol, (stu_field_lookup_found _ _ _ _ Hstu). simpl.
  rewrite (is_None_false _ Hnone). simpl.
  unfold do_test, field_diagnostic. destruct (reporter st); reflexivity.
Qed.

Lemma check_field_body_student_failed (sol_v : pyval) (e : exn) :
  field_lookup (solution_ast st) name index = Ret sol_v ->
  field_lookup (student_ast st) name index = Raise e ->
  reporter st = AbruptExit ->
  check_field_body st name index msg =
  (let m := Some (str_or (field_diagnostic st name index msg) MSG_CHECK_FALLBACK) in
   ([m], Raise (TestFail m))).
Proof.
  intros Hsol Hstu Hrep. unfold check_field_body.
  rewrite Hsol, (stu_field_lookup_failed _ _ _ _ Hstu). simpl.
  unfold do_test. rewrite Hrep. reflexivity.
Qed.

End CheckField.

(** C6. The code at the failing input. The dispatcher describes nothing;
    the field [from_clause] resolves on both sides, to [None] for the
    student and to a value for the solution. The branch for this case hands
    [None] to the Reporter, where the lookup-failure branch, asked about the
    same field with the same dispatcher, reports the fallback message: the
    first passes the description on as it is, the second through
    [or MSG_CHECK_FALLBACK]. *)
Lemma check_field_student_none_drops_fallback :
  check_field (Demo.mk_quiet Demo.sel_x Demo.sel_a)
    "from_clause" None check_field_missing_msg =
    ([None], Raise (TestFail None))
  /\ check_field (Demo.mk_quiet Demo.wrap Demo.sel_a)
       "from_clause" None check_field_missing_msg =
     ([Some MSG_CHECK_FALLBACK], Raise (TestFail (Some MSG_CHECK_FALLBACK))).
Proof. split; reflexivity. Qed.

(** ** The Reporter's two styles *)

(** C9, as amended. With a Reporter that exits abruptly, a [check_node] or
    a [check_field] whose solution-side lookup succeeded and whose
    student-side lookup failed halts with exactly the reported failure: one
    message, the Reporter's exception, no other error. *)
Theorem failed_lookup_halts_with_abrupt_exit (st : State) :
  reporter st = AbruptExit ->
  parsed (student_ast st) -> parsed (solution_ast st) ->
  tolerates_reporter st
  /\ (forall name index msg priority sol_i,
         list_getitem (select (ast_dispatcher st) name priority (solution_ast st)) index
           = Some sol_i ->
         list_getitem (select (ast_dispatcher st) name priority (student_ast st)) index
           = None ->
         let m := Some (str_or (describe (ast_dispatcher st) sol_i msg None (Some index))
                          MSG_CHECK_FALLBACK) in
         check_node st name index msg priority = ([m], Raise (TestFail m)))
  /\ (forall name index msg sol_v e,
         field_lookup (solution_ast st) name index = Ret sol_v ->
         field_lookup (student_ast st) name index = Raise e ->
         let m := Some (str_or (field_diagnostic st name index msg) MSG_CHECK_FALLBACK) in
         check_field st name index msg = ([m], Raise (TestFail m))).
Proof.
  intros Hrep Hs Ht.
  assert (Hnode : forall name index msg priority sol_i,
    list_getitem (select (ast_dispatcher st) name priority (solution_ast st)) index
      = Some sol_i ->
    list_getitem (select (ast_dispatcher st) name priority (student_ast st)) index
      = None ->
    check_node st name index msg priority =
    ([Some (str_or (describe (ast_dispatcher st) sol_i msg None (Some index))
              MSG_CHECK_FALLBACK)],
     Raise (TestFail (Some (str_or (describe (ast_dispatcher st) sol_i msg None (Some index))
                              MSG_CHECK_FALLBACK))))).
  { intros name index msg priority sol_i Hsol Hstu. unfold check_node.
    rewrite requires_ast_admits by assumption.
    rewrite (check_node_body_student_missing _ _ _ _ _ _ Hsol Hstu).
    simpl. now rewrite Hrep. }
  assert (Hfield : forall name index msg sol_v e,
    field_lookup (solution_ast st) name index = Ret sol_v ->
    field_lookup (student_ast st) name index = Raise e ->
    check_field st name index msg =
    ([Some (str_or (field_diagnostic st name index msg) MSG_CHECK_FALLBACK)],
     Raise (TestFail (Some (str_or (field_diagnostic st name index msg)
                              MSG_CHECK_FALLBACK))))).
  { intros name index msg sol_v e Hsol Hstu. unfold check_field.
    rewrite requires_ast_admits by assumption.
    now rewrite (check_field_body_student_failed _ _ _ _ _ _ Hsol Hstu Hrep). }
  split; [split|split].
  - intros name index msg priority sol_i Hsol Hstu e.
    rewrite (Hnode _ _ _ _ _ Hsol Hstu). simpl. intros [= <-]. eauto.
  - intros name index msg sol_v e Hsol Hstu e'.
    rewrite (Hfield _ _ _ _ _ Hsol Hstu). simpl. intros [= <-]. eauto.
  - exact Hnode.
  - exact Hfield.
Qed.

Lemma failed_lookup_halts_with_abrupt_exit_witness :
  tolerates_reporter (Demo.mk Demo.script_none Demo.script_one AbruptExit).
Proof.
  apply (failed_lookup_halts_with_abrupt_exit
           (Demo.mk Demo.script_none Demo.script_one AbruptExit)).
  - reflexivity.
  - split; discriminate.
  - split; discriminate.
Defined.

(** C9, as stated, fails. With a Reporter that returns, [check_node] goes
    on after the report and reads [stu_stmt], which the failed lookup never
    assigned; [check_field] does the same with [stu_attr] when the field is
    missing, and when only the index failed it returns a child State focused
    on the whole, un-indexed student field. *)
Lemma returning_reporter_not_tolerated :
  let st := Demo.mk Demo.script_none Demo.script_one ReturnsTerminal in
  check_node st "SelectStmt" 0 check_node_missing_msg None =
    ([Some "Could not find the {index}{node_name}. (SelectStmt)"],
     Raise (UnboundLocalError "stu_stmt"))
  /\ check_field st "body" (Some 0) check_field_missing_msg =
     ([Some "Could not find the {index}{field_name} of the {node_name}. (Script)"],
      Ret (to_child st (VList []) Demo.sel_a [ActCheckField "body" (Some 0)]))
  /\ check_field (Demo.mk Demo.wrap Demo.sel_a ReturnsTerminal)
       "from_clause" None check_field_missing_msg =
     ([Some "Could not find the {index}{field_name} of the {node_name}. (Subquery)"],
      Raise (UnboundLocalError "stu_attr"))
  /\ ~ tolerates_reporter st.
Proof.
  simpl. repeat split.
  intros [H _].
  destruct (H "SelectStmt" 0 check_node_missing_msg None Demo.sel_a eq_refl eq_refl
              (UnboundLocalError "stu_stmt") eq_refl) as [m Hm].
  discriminate Hm.
Qed.

(** ** Structural equality *)

Section EqualAst.

Variable str_format : string -> list (string * string) -> string.
Variable repr : pyval -> string.
Variable get_ast_path : State -> string.

(** The test that decides the body, as a boolean. *)
Let mismatch (st : State) (sql : option string) (start : string) (exact : bool) : bool :=
  let sol_rep := repr (comparison_target st sql start) in
  let stu_rep := repr (student_ast st) in
  if exact then negb (String.eqb sol_rep stu_rep) else negb (contains sol_rep stu_rep).

Lemma has_equal_ast_body_match st msg sql start exact :
  mismatch st sql start exact = false ->
  has_equal_ast_body str_format repr get_ast_path st msg sql start exact = ([], Ret st).
Proof.
  unfold mismatch, comparison_target, has_equal_ast_body.
  destruct exact; simpl; intros ->; reflexivity.
Qed.

Lemma has_equal_ast_body_mismatch st msg sql start exact :
  mismatch st sql start exact = true ->
  exists m,
    has_equal_ast_body str_format repr get_ast_path st msg sql start exact =
    ([Some m], match reporter st with
               | AbruptExit => Raise (TestFail (Some m))
               | ReturnsTerminal => Ret st
               end).
Proof.
  unfold mismatch, comparison_target, has_equal_ast_body.
  destruct exact; simpl; intros ->; unfold do_test;
    eexists; destruct (reporter st); reflexivity.
Qed.

Lemma has_equal_ast_body_reports st msg sql start exact :
  reports (has_equal_ast_body str_format repr get_ast_path st msg sql start exact) <> [] <->
  mismatch st sql start exact = true.
Proof.
  destruct (mismatch st sql start exact) eqn:E.
  - destruct (has_equal_ast_body_mismatch st msg sql start exact E) as [m ->].
    simpl. split; [reflexivity | discriminate].
  - rewrite (has_equal_ast_body_match st msg sql start exact E).
    simpl. split; [congruence | discriminate].
Qed.


Lemma child_parsed (t t' : pyval) : child t t' -> parsed t'.
Proof. intros []; split; discriminate. Qed.

Lemma subtree_parsed (t t' : pyval) : parsed t -> subtree t t' -> parsed t'.
Proof. intros Ht []; [assumption | eapply child_parsed; eassumption]. Qed.

Hypothesis repr_compositional :
  forall t t', child t t' -> contains (repr t) (repr t') = true.

Lemma subtree_repr (t t' : pyval) :
  subtree t t' -> contains (repr t) (repr t') = true.
Proof.
  induction 1 as [|y z Hyz _ IH].
  - apply contains_spec, substr_refl.
  - eapply contains_trans; [exact IH | now apply repr_compositional].
Qed.


End EqualAst.

Lemma demo_repr_list (l : list pyval) :
  Demo.repr (VList l) = "[" ++ String.concat ", " (map Demo.repr l) ++ "]".
Proof. reflexivity. Qed.

Lemma demo_repr_node (cls : string) (fs : list (string * pyval)) :
  Demo.repr (VNode cls fs) =
  cls ++ "(" ++
  String.concat ", "
    (map (fun kv => match kv with (k, x) => k ++ " = " ++ Demo.repr x end) fs) ++ ")".
Proof. reflexivity. Qed.

Lemma demo_repr_compositional (t t' : pyval) :
  child t t' -> contains (Demo.repr t) (Demo.repr t') = true.
Proof.
  intros [l x Hin | cls fs k x Hin]; apply contains_spec.
  - rewrite demo_repr_list.
    apply substr_app_l, substr_app_r, substr_concat.
    now apply in_map.
  - rewrite demo_repr_node.
    apply substr_app_l, substr_app_l, substr_app_r.
    eapply substr_trans;
      [| apply substr_concat;
         apply (in_map (fun kv : string * pyval =>
                          match kv with (k0, x0) => k0 ++ " = " ++ Demo.repr x0 end)
                  fs (k, x) Hin)].
    apply substr_app_l, substr_app_l, substr_refl.
Qed.




(** ** Text search *)

Section HasCode.

Variable format_template : string -> list (string * string) -> result string.
Variable re_search : string -> string -> result bool.
Variable get_ast_path : State -> string.

Lemma has_code_on_text (st : State) (text msg : string) (fixed : bool)
    (stu_text m : string) (found : bool) :
  (student_ast st = VParseError /\ stu_text = student_code st)
  \/ (student_ast st <> VParseError
      /\ _get_text (ast_dispatcher st) (student_ast st) (student_code st)
         = Ret stu_text) ->
  format_template msg [("ast_path", get_ast_path st); ("text", text)] = Ret m ->
  (if fixed then Ret (contains text stu_text) else re_search text stu_text) = Ret found ->
  has_code format_template re_search get_ast_path st text msg fixed =
  (if found
   then ([], Ret st)
   else ([Some m], match reporter st with
                   | AbruptExit => Raise (TestFail (Some m))
                   | ReturnsTerminal => Ret st
                   end)).
Proof.
  intros Htext Hfmt Hfound. unfold has_code.
  assert (E : (if negb (isinstance_ParseError (student_ast st))
               then _get_text (ast_dispatcher st) (student_ast st) (student_code st)
               else Ret (student_code st)) = Ret stu_text).
  { destruct Htext as [[Hpe ->] | [Hpe Hget]].
    - now rewrite Hpe.
    - now rewrite (isinstance_ParseError_false _ Hpe). }
  rewrite E. simpl. rewrite Hfmt. simpl. rewrite Hfound. simpl.
  destruct found; simpl; [reflexivity|].
  unfold do_test. destruct (reporter st); reflexivity.
Qed.


End HasCode.



(** ** History *)

Lemma bind_ret_l {A B : Type} (a : A) (k : A -> M B) : bind ([], Ret a) k = k a.
Proof. unfold bind. destruct (k a). reflexivity. Qed.

Lemma check_field_body_failed_reports (st : State) (name : string) (index : option Z)
    (msg : string) (sol_v : pyval) (e : exn) :
  field_lookup (solution_ast st) name index = Ret sol_v ->
  field_lookup (student_ast st) name index = Raise e ->
  reports (check_field_body st name index msg) <> [].
Proof.
  intros Hsol Hstu. unfold check_field_body.
  rewrite Hsol, (stu_field_lookup_failed _ _ _ _ Hstu). simpl.
  unfold do_test. destruct (reporter st); simpl; [discriminate|].
  destruct (getattr (student_ast st) name); simpl; [|discriminate].
  destruct (is_None a && negb (is_None sol_v)); simpl;
    destruct (reporter st); discriminate.
Qed.

(** One successful narrowing step appends one Action, and calling the
    primitive again with the recorded arguments repeats the step when the
    step used the default priority. *)
Lemma narrows_appends (st : State) (n : Narrowing) (st' : State) :
  narrows st n st' ->
  exists a,
    history st' = (history st ++ [a])%list
    /\ (default_priority n -> replay_action a st = ([], Ret st')).
Proof.
  intros (Hs & Ht & Hrun). destruct n as [name index msg priority | name index msg];
    simpl in Hrun.
  - unfold check_node in Hrun. rewrite requires_ast_admits in Hrun by assumption.
    destruct (list_getitem (select (ast_dispatcher st) name priority (solution_ast st))
                index) as [sol_i|] eqn:Hsol.
    2:{ rewrite check_node_body_solution_missing in Hrun by assumption.
        discriminate Hrun. }
    destruct (list_getitem (select (ast_dispatcher st) name priority (student_ast st))
                index) as [stu_i|] eqn:Hstu.
    2:{ rewrite (check_node_body_student_missing _ _ _ _ _ _ Hsol Hstu) in Hrun.
        discriminate Hrun. }
    rewrite (check_node_body_found _ _ _ _ _ _ _ Hsol Hstu) in Hrun.
    injection Hrun as <-.
    exists (ActCheckNode name index stu_i). split; [reflexivity|].
    simpl. intros ->. unfold check_node.
    rewrite requires_ast_admits by assumption.
    now apply check_node_body_found.
  - unfold check_field in Hrun. rewrite requires_ast_admits in Hrun by assumption.
    destruct (field_lookup (solution_ast st) name index) as [sol_v|e] eqn:Hsol.
    2:{ unfold check_field_body in Hrun. rewrite Hsol in Hrun.
        destruct e; discriminate Hrun. }
    destruct (field_lookup (student_ast st) name index) as [stu_v|e] eqn:Hstu.
    2:{ pose proof (check_field_body_failed_reports st name index msg _ _ Hsol Hstu) as Hr.
        rewrite Hrun in Hr. now elim Hr. }
    destruct (is_None stu_v && negb (is_None sol_v)) eqn:Hnone.
    { unfold check_field_body in Hrun.
      rewrite Hsol, (stu_field_lookup_found _ _ _ _ Hstu) in Hrun. simpl in Hrun.
      rewrite Hnone in Hrun. unfold do_test in Hrun.
      destruct (reporter st); discriminate Hrun. }
    rewrite (check_field_body_found _ _ _ _ _ _ Hsol Hstu Hnone) in Hrun.
    injection Hrun as <-.
    exists (ActCheckField name index). split; [reflexivity|].
    intros _. simpl. unfold check_field.
    rewrite requires_ast_admits by assumption.
    now apply check_field_body_found.
Qed.

Lemma narrows_star_appends (st : State) (steps : list Narrowing) (final : State) :
  narrows_star st steps final ->
  exists acts,
    history final = (history st ++ acts)%list
    /\ List.length acts = List.length steps
    /\ (Forall default_priority steps -> replay acts st = ([], Ret final)).
Proof.
  induction 1 as [st | st n st' ns st'' Hstep _ IH].
  - exists []. split; [now rewrite app_nil_r|]. split; reflexivity.
  - destruct (narrows_appends _ _ _ Hstep) as (a & Ha & Hreplay).
    destruct IH as (acts & Hacts & Hlen & Hrep).
    exists (a :: acts). split; [|split].
    + rewrite Hacts, Ha, <- app_assoc. reflexivity.
    + simpl. now rewrite Hlen.
    + intros Hdef. inversion Hdef as [|? ? Hn Hns]; subst.
      simpl. rewrite (Hreplay Hn), bind_ret_l. now apply Hrep.
Qed.

(** C4, as amended. A successful narrowing step gives a State whose
    history is its parent's history followed by exactly one Action, so one
    longer. After a chain of successful steps from a root State with an
    empty history, the history has as many Actions as there were steps, and
    when every [check_node] of the chain used the default priority,
    replaying the history from the root gives the final State again. *)
Theorem history_path_accumulation (root : State) (steps : list Narrowing)
    (final : State) :
  history root = [] ->
  narrows_star root steps final ->
  (forall st n st',
      narrows st n st' ->
      exists a,
        history st' = (history st ++ [a])%list
        /\ List.length (history st') = S (List.length (history st))
        /\ firstn (List.length (history st)) (history st') = history st)
  /\ List.length (history final) = List.length steps
  /\ (Forall default_priority steps ->
      replay (history final) root = ([], Ret final)
      /\ path_accumulation root steps final).
Proof.
  intros Hroot Hchain. split; [|].
  - intros st n st' Hstep.
    destruct (narrows_appends _ _ _ Hstep) as (a & Ha & _).
    exists a. rewrite Ha. split; [reflexivity|]. split.
    + rewrite length_app. simpl. lia.
    + rewrite firstn_app, Nat.sub_diag, firstn_all. simpl. now rewrite app_nil_r.
  - destruct (narrows_star_appends _ _ _ Hchain) as (acts & Hacts & Hlen & Hrep).
    rewrite Hroot in Hacts. simpl in Hacts. subst acts.
    split; [exact Hlen|].
    intros Hdef. specialize (Hrep Hdef). split; [exact Hrep|].
    split; [exact Hlen|]. exists final. rewrite Hrep. repeat split.
Qed.

Lemma history_path_accumulation_witness :
  let root := Demo.mk Demo.script_one Demo.script_one AbruptExit in
  let act1 := ActCheckNode "SelectStmt" 0 Demo.sel_a in
  let act2 := ActCheckField "from_clause" None in
  let focus1 := to_child root Demo.sel_a Demo.sel_a [act1] in
  let final := to_child focus1 (VStr "b") (VStr "b") [act1; act2] in
  replay (history final) root = ([], Ret final).
Proof.
  intros root act1 act2 focus1 final.
  apply (history_path_accumulation root
           [CheckNode "SelectStmt" 0 check_node_missing_msg None;
            CheckField "from_clause" None check_field_missing_msg] final).
  - reflexivity.
  - apply narrows_cons with (st' := focus1).
    + repeat split; discriminate.
    + apply narrows_cons with (st' := final).
      * repeat split; discriminate.
      * apply narrows_nil.
  - repeat constructor.
Defined.

(** C4, as stated, fails. The Action keeps the name and the index of a
    [check_node] but not its priority: a node selected with priority 99
    below a sub-query is recorded as [('SelectStmt', 0)], and replaying that
    from the root selects another statement. *)
Lemma path_accumulation_counterexample :
  let root := Demo.mk Demo.script_nested Demo.script_nested AbruptExit in
  let steps := [CheckNode "SelectStmt" 0 check_node_missing_msg (Some 99)] in
  let final := to_child root Demo.sel_a Demo.sel_a [ActCheckNode "SelectStmt" 0 Demo.sel_a] in
  history root = []
  /\ narrows_star root steps final
  /\ outcome (replay (history final) root) =
     Ret (to_child root Demo.sel_x Demo.sel_x [ActCheckNode "SelectStmt" 0 Demo.sel_x])
  /\ ~ path_accumulation root steps final.
Proof.
  intros root steps final. split; [reflexivity|]. split; [|split].
  - apply narrows_cons with (st' := final).
    + repeat split; discriminate.
    + apply narrows_nil.
  - reflexivity.
  - intros (_ & st_r & Hout & Hstu & _).
    assert (Hr : outcome (replay (history final) root) =
                 Ret (to_child root Demo.sel_x Demo.sel_x
                        [ActCheckNode "SelectStmt" 0 Demo.sel_x])) by reflexivity.
    rewrite Hr in Hout. injection Hout as <-.
    discriminate Hstu.
Qed.

(** ** The scenarios of the specification, run on the small dispatcher *)

(** Student and solution are the same script: selecting the statement,
    then its [from_clause], then comparing, all succeed. *)
Example scenario_select_then_compare :
  let root := Demo.mk Demo.script_one Demo.script_one AbruptExit in
  outcome
    (s1 <- check_node root "SelectStmt" 0 check_node_missing_msg None ;;
     s2 <- check_field s1 "from_clause" None check_field_missing_msg ;;
     has_equal_ast Demo.str_format Demo.repr Demo.get_ast_path s2
       has_equal_ast_msg None "sql_script" true)
  = Ret (to_child root (VStr "b") (VStr "b")
           [ActCheckNode "SelectStmt" 0 Demo.sel_a; ActCheckField "from_clause" None]).
Proof. reflexivity. Qed.

(** The student code did not parse: [has_parsed_ast] reports, and
    [check_node] on the same State is skipped. *)
Example scenario_student_parse_error :
  let st := Demo.mk VParseError Demo.script_one AbruptExit in
  has_parsed_ast st =
    ([Some "AST did not parse"], Raise (TestFail (Some "AST did not parse")))
  /\ check_node st "SelectStmt" 0 check_node_missing_msg None = ([], Ret st).
Proof. split; reflexivity. Qed.

(** The solution has one statement and the check asks for the second. *)
Example scenario_index_beyond_solution :
  check_node (Demo.mk Demo.script_one Demo.script_one AbruptExit)
    "SelectStmt" 1 check_node_missing_msg None =
  ([], Raise (IndexError "Can't get SelectStmt statement at index 1")).
Proof. reflexivity. Qed.

(** A negative index counts from the end, on both sides. *)
Example scenario_negative_index :
  outcome (check_node (Demo.mk Demo.script_one Demo.script_one AbruptExit)
             "SelectStmt" (-1) check_node_missing_msg None)
  = Ret (to_child (Demo.mk Demo.script_one Demo.script_one AbruptExit)
           Demo.sel_a Demo.sel_a [ActCheckNode "SelectStmt" (-1) Demo.sel_a]).
Proof. reflexivity. Qed.


(** ** Further properties of the checks *)

Lemma is_None_false_inv (v : pyval) : is_None v = false -> v <> VNone.
Proof. destruct v; simpl; congruence. Qed.

Lemma isinstance_ParseError_false_inv (v : pyval) :
  isinstance_ParseError v = false -> v <> VParseError.
Proof. destruct v; simpl; congruence. Qed.

(** The three ways out of the guard; which one is taken depends on the
    State alone. *)
Lemma requires_ast_cases (st : State) :
  (forall f, requires_ast f st =
     ([], Raise (TypeError "Trying to use ast, but it is None. Are you using a parser?")))
  \/ (forall f, requires_ast f st = ([], Ret st))
  \/ (parsed (student_ast st) /\ parsed (solution_ast st)
      /\ forall f, requires_ast f st = f st).
Proof.
  unfold requires_ast. simpl.
  destruct (is_None (student_ast st)) eqn:E1; simpl; [now left|].
  destruct (is_None (solution_ast st)) eqn:E2; simpl; [now left|].
  destruct (isinstance_ParseError (student_ast st)) eqn:E3; simpl; [now right; left|].
  destruct (isinstance_ParseError (solution_ast st)) eqn:E4; simpl; [now right; left|].
  right; right. repeat split;
    auto using is_None_false_inv, isinstance_ParseError_false_inv.
Qed.

Lemma list_getitem_negative {A : Type} (l : list A) (i : Z) :
  - Z.of_nat (List.length l) <= i < 0 ->
  list_getitem l i = nth_error l (Z.to_nat (Z.of_nat (List.length l) + i)).
Proof.
  intros [Hlo Hhi]. unfold list_getitem, norm_index.
  destruct (Z.leb_spec 0 i); [lia|]. simpl.
  destruct (Z.ltb_spec i 0); [|lia].
  destruct (Z.leb_spec (- Z.of_nat (List.length l)) i); [|lia].
  reflexivity.
Qed.

Lemma list_getitem_below {A : Type} (l : list A) (i : Z) :
  i < - Z.of_nat (List.length l) -> list_getitem l i = None.
Proof.
  intros Hlt. unfold list_getitem, norm_index.
  destruct (Z.leb_spec 0 i); [lia|]. simpl.
  destruct (Z.leb_spec (- Z.of_nat (List.length l)) i); [lia|].
  now rewrite andb_false_r.
Qed.

Lemma nth_error_in_range {A : Type} (l : list A) (k : nat) :
  (k < List.length l)%nat -> exists x, nth_error l k = Some x.
Proof.
  intros Hk. destruct (nth_error l k) eqn:E; [eauto|].
  apply nth_error_None in E. lia.
Qed.

Lemma str_or_fallback_nonempty (x : option string) :
  str_or x MSG_CHECK_FALLBACK <> "".
Proof. destruct x as [[|c s]|]; simpl; discriminate. Qed.

Lemma contains_refl (s : string) : contains s s = true.
Proof. apply contains_spec, substr_refl. Qed.

Lemma contains_empty (t : string) : contains "" t = true.
Proof. apply contains_spec. exists "", t. reflexivity. Qed.

Lemma field_lookup_not_TestFail (t : pyval) (name : string) (index : option Z) (e : exn) :
  field_lookup t name index = Raise e -> authoring_error e.
Proof.
  unfold field_lookup, getattr, getitem.
  destruct t; try (intros [= <-]; exact I).
  destruct (assoc name fields) as [v|]; [|intros [= <-]; exact I].
  destruct index as [i|]; [|discriminate].
  destruct v; try (intros [= <-]; exact I).
  - destruct (str_getitem s i); [discriminate | intros [= <-]; exact I].
  - destruct (list_getitem l i); [discriminate | intros [= <-]; exact I].
Qed.

(** X1. A negative index counts from the end of each node list on its own
    side. On a State that the guard admits, [check_node] with [i < 0] within
    both lists focuses on the solution node at [len(sols) + i] and on the
    student node at [len(stus) + i], which is another position when the two
    lists differ in length; below [-len(sols)] it raises [IndexError] and
    reports nothing. *)
Theorem check_node_negative_index (st : State) (name msg : string)
    (priority : option Z) (i : Z) :
  parsed (student_ast st) -> parsed (solution_ast st) ->
  i < 0 ->
  let sols := select (ast_dispatcher st) name priority (solution_ast st) in
  let stus := select (ast_dispatcher st) name priority (student_ast st) in
  (- Z.of_nat (List.length sols) <= i -> - Z.of_nat (List.length stus) <= i ->
   exists sol_i stu_i,
     nth_error sols (Z.to_nat (Z.of_nat (List.length sols) + i)) = Some sol_i
     /\ nth_error stus (Z.to_nat (Z.of_nat (List.length stus) + i)) = Some stu_i
     /\ check_node st name i msg priority =
        ([], Ret (to_child st stu_i sol_i
                    (history st ++ [ActCheckNode name i stu_i])%list)))
  /\ (i < - Z.of_nat (List.length sols) ->
      check_node st name i msg priority =
      ([], Raise (IndexError ("Can't get " ++ name ++ " statement at index "
                                ++ str_of_int i)))).
Proof.
  intros Hs Ht Hi sols stus. split.
  - intros Hsol Hstu.
    destruct (nth_error_in_range sols (Z.to_nat (Z.of_nat (List.length sols) + i)))
      as [sol_i Esol]; [lia|].
    destruct (nth_error_in_range stus (Z.to_nat (Z.of_nat (List.length stus) + i)))
      as [stu_i Estu]; [lia|].
    exists sol_i, stu_i. split; [exact Esol|]. split; [exact Estu|].
    unfold check_node. rewrite requires_ast_admits by assumption.
    apply check_node_body_found.
    + fold sols. rewrite list_getitem_negative by lia. exact Esol.
    + fold stus. rewrite list_getitem_negative by lia. exact Estu.
  - intros Hlow. unfold check_node. rewrite requires_ast_admits by assumption.
    apply check_node_body_solution_missing. fold sols.
    now apply list_getitem_below.
Qed.

Lemma check_node_negative_index_witness :
  let st := Demo.mk Demo.script_nested Demo.script_one AbruptExit in
  exists sol_i stu_i,
    nth_error [Demo.sel_a] 0 = Some sol_i
    /\ nth_error [Demo.sel_a; Demo.sel_x] 1 = Some stu_i
    /\ check_node st "SelectStmt" (-1) check_node_missing_msg (Some 99) =
       ([], Ret (to_child st stu_i sol_i [ActCheckNode "SelectStmt" (-1) stu_i])).
Proof.
  intros st.
  apply (check_node_negative_index st "SelectStmt" check_node_missing_msg (Some 99) (-1)).
  - split; discriminate.
  - split; discriminate.
  - lia.
  - simpl. lia.
  - simpl. lia.
Defined.

(** X2. A failing solution-side lookup of [check_field] is an authoring
    error on every State that the guard admits: nothing is reported, the
    student side is not consulted, an [IndexError] is raised again with the
    message naming the field, and any other exception (missing field, value
    that cannot be indexed) goes through as it is. *)
Theorem check_field_solution_error (st : State) (name : string) (index : option Z)
    (msg : string) (e : exn) :
  parsed (student_ast st) -> parsed (solution_ast st) ->
  field_lookup (solution_ast st) name index = Raise e ->
  let e' := match e with
            | IndexError _ => IndexError ("Can't get " ++ name ++ " attribute")
            | _ => e
            end in
  check_field st name index msg = ([], Raise e') /\ authoring_error e'.
Proof.
  intros Hs Ht Hsol e'. split.
  - unfold check_field. rewrite requires_ast_admits by assumption.
    unfold check_field_body. rewrite Hsol. unfold e'. destruct e; reflexivity.
  - pose proof (field_lookup_not_TestFail _ _ _ _ Hsol) as Ha.
    unfold e'. destruct e; simpl in *; auto.
Qed.

Lemma check_field_solution_error_witness :
  let st := Demo.mk Demo.script_one Demo.script_one AbruptExit in
  check_field st "body" (Some 5) check_field_missing_msg =
    ([], Raise (IndexError "Can't get body attribute"))
  /\ check_field st "where_clause" None check_field_missing_msg =
     ([], Raise (AttributeError "where_clause"))
  /\ check_field (Demo.mk Demo.sel_x Demo.sel_x AbruptExit)
       "from_clause" (Some 0) check_field_missing_msg =
     ([], Raise (TypeError "object is not subscriptable")).
Proof.
  intros st. split; [|split].
  - apply (check_field_solution_error st "body" (Some 5) check_field_missing_msg
             (IndexError "list index out of range"));
      (split; discriminate) || reflexivity.
  - apply (check_field_solution_error st "where_clause" None check_field_missing_msg
             (AttributeError "where_clause"));
      (split; discriminate) || reflexivity.
  - apply (check_field_solution_error (Demo.mk Demo.sel_x Demo.sel_x AbruptExit)
             "from_clause" (Some 0) check_field_missing_msg
             (TypeError "object is not subscriptable"));
      (split; discriminate) || reflexivity.
Defined.

(** X3. When the field (and index) resolves on both sides, [check_field]
    fails only if the student value is [None] and the solution value is
    not. In every other case, a student value where the solution has [None]
    included, it reports nothing and returns the child State focused on the
    two values, with one [check_field] Action appended. *)
Theorem check_field_resolved (st : State) (name : string) (index : option Z)
    (msg : string) (sol_v stu_v : pyval) :
  field_lookup (solution_ast st) name index = Ret sol_v ->
  field_lookup (student_ast st) name index = Ret stu_v ->
  stu_v <> VNone \/ sol_v = VNone ->
  check_field st name index msg =
  ([], Ret (to_child st stu_v sol_v (history st ++ [ActCheckField name index])%list)).
Proof.
  intros Hsol Hstu Hcase. unfold check_field.
  rewrite requires_ast_admits by (eapply field_lookup_parsed; eassumption).
  apply check_field_body_found; try assumption.
  destruct Hcase as [H | ->].
  - now rewrite (is_None_false _ H).
  - simpl. apply andb_false_r.
Qed.

Lemma check_field_resolved_witness :
  let st := Demo.mk Demo.sel_a Demo.sel_x AbruptExit in
  check_field st "from_clause" None check_field_missing_msg =
  ([], Ret (to_child st (VStr "b") VNone [ActCheckField "from_clause" None])).
Proof.
  intros st.
  apply (check_field_resolved st "from_clause" None check_field_missing_msg
           VNone (VStr "b")).
  - reflexivity.
  - reflexivity.
  - left. discriminate.
Defined.

(** X4. Selecting a field that is [None] in both trees succeeds, and the
    child State it gives is one on which every guarded check raises the
    guard's [TypeError]: [check_node], [check_field] and any other wrapped
    primitive alike. *)
Theorem check_field_none_then_guard (st : State) (name : string) (index : option Z)
    (msg : string) :
  field_lookup (solution_ast st) name index = Ret VNone ->
  field_lookup (student_ast st) name index = Ret VNone ->
  exists child_st,
    check_field st name index msg = ([], Ret child_st)
    /\ student_ast child_st = VNone
    /\ solution_ast child_st = VNone
    /\ (forall f, requires_ast f child_st =
          ([], Raise (TypeError "Trying to use ast, but it is None. Are you using a parser?")))
    /\ (forall name' index' msg' priority,
          check_node child_st name' index' msg' priority =
          ([], Raise (TypeError "Trying to use ast, but it is None. Are you using a parser?")))
    /\ (forall name' index' msg',
          check_field child_st name' index' msg' =
          ([], Raise (TypeError "Trying to use ast, but it is None. Are you using a parser?"))).
Proof.
  intros Hsol Hstu.
  exists (to_child st VNone VNone (history st ++ [ActCheckField name index])%list).
  split.
  - unfold check_field.
    rewrite requires_ast_admits by (eapply field_lookup_parsed; eassumption).
    now apply check_field_body_found.
  - repeat split.
Qed.

Lemma check_field_none_then_guard_witness :
  exists child_st,
    check_field (Demo.mk Demo.sel_x Demo.sel_x AbruptExit)
      "from_clause" None check_field_missing_msg = ([], Ret child_st)
    /\ student_ast child_st = VNone.
Proof.
  destruct (check_field_none_then_guard (Demo.mk Demo.sel_x Demo.sel_x AbruptExit)
              "from_clause" None check_field_missing_msg eq_refl eq_refl)
    as (c & H1 & H2 & _).
  exists c. split; assumption.
Defined.

(** X5. Once [has_parsed_ast] has passed on a State whose two trees are
    present, no guarded check is skipped on it: the guard hands the State to
    the wrapped primitive. *)
Theorem has_parsed_ast_then_guard_admits (st : State) (f : State -> M State) :
  student_ast st <> VNone -> solution_ast st <> VNone ->
  has_parsed_ast st = ([], Ret st) ->
  requires_ast f st = f st.
Proof.
  intros Hs Ht Hpass. apply requires_ast_admits; split; try assumption.
  - intros E. unfold has_parsed_ast in Hpass. simpl in Hpass. rewrite E in Hpass.
    simpl in Hpass. unfold do_test in Hpass. destruct (reporter st); discriminate.
  - intros E. unfold has_parsed_ast in Hpass. simpl in Hpass. rewrite E in Hpass.
    rewrite orb_true_r in Hpass. unfold do_test in Hpass.
    destruct (reporter st); discriminate.
Qed.

Lemma has_parsed_ast_then_guard_admits_witness :
  let st := Demo.mk Demo.script_one Demo.script_one ReturnsTerminal in
  requires_ast (fun s => check_node_body s "SelectStmt" 0 check_node_missing_msg None) st
  = check_node_body st "SelectStmt" 0 check_node_missing_msg None.
Proof.
  intros st.
  apply (has_parsed_ast_then_guard_admits st
           (fun s => check_node_body s "SelectStmt" 0 check_node_missing_msg None)).
  - discriminate.
  - discriminate.
  - reflexivity.
Defined.

(** X6. [check_node] never hands the Reporter an empty message or [None]:
    whatever it reports is a non-empty string, thanks to the fallback. *)
Theorem check_node_reports_nonempty (st : State) (name : string) (index : Z)
    (msg : string) (priority : option Z) (x : option string) :
  In x (reports (check_node st name index msg priority)) ->
  exists m, x = Some m /\ m <> "".
Proof.
  unfold check_node.
  destruct (requires_ast_cases st) as [E | [E | (_ & _ & E)]]; rewrite E;
    try (simpl; contradiction).
  destruct (list_getitem (select (ast_dispatcher st) name priority (solution_ast st))
              index) as [sol_i|] eqn:Hsol.
  2:{ rewrite check_node_body_solution_missing by assumption. simpl. contradiction. }
  destruct (list_getitem (select (ast_dispatcher st) name priority (student_ast st))
              index) as [stu_i|] eqn:Hstu.
  - rewrite (check_node_body_found _ _ _ _ _ _ _ Hsol Hstu). simpl. contradiction.
  - rewrite (check_node_body_student_missing _ _ _ _ _ _ Hsol Hstu). simpl.
    intros [<- | []]. eexists. split; [reflexivity|].
    apply str_or_fallback_nonempty.
Qed.

Lemma check_node_reports_nonempty_witness :
  exists m,
    Some "Could not find the {index}{node_name}. (SelectStmt)" = Some m /\ m <> "".
Proof.
  apply (check_node_reports_nonempty
           (Demo.mk Demo.script_none Demo.script_one AbruptExit)
           "SelectStmt" 0 check_node_missing_msg None).
  simpl. left. reflexivity.
Defined.

Section FurtherTextChecks.

Variable str_format : string -> list (string * string) -> string.
Variable format_template : string -> list (string * string) -> result string.
Variable re_search : string -> string -> result bool.
Variable repr : pyval -> string.
Variable get_ast_path : State -> string.

(** The reports and the outcome of the body of [has_equal_ast], by the
    test that decides it. *)
Lemma has_equal_ast_body_cases (st : State) (msg : string) (sql : option string)
    (start : string) (exact : bool) :
  let sol_rep := repr (comparison_target st sql start) in
  let stu_rep := repr (student_ast st) in
  let passes := if exact then String.eqb sol_rep stu_rep else contains sol_rep stu_rep in
  (passes = true /\
   has_equal_ast_body str_format repr get_ast_path st msg sql start exact = ([], Ret st))
  \/ (passes = false /\
      exists m,
        m <> "" /\
        has_equal_ast_body str_format repr get_ast_path st msg sql start exact =
        ([Some m], match reporter st with
                   | AbruptExit => Raise (TestFail (Some m))
                   | ReturnsTerminal => Ret st
                   end)).
Proof.
  intros sol_rep stu_rep passes. subst passes sol_rep stu_rep.
  unfold has_equal_ast_body, comparison_target. cbv zeta.
  set (m := str_or _ MSG_CHECK_FALLBACK).
  assert (Hm : m <> "") by apply str_or_fallback_nonempty.
  clearbody m.
  destruct exact;
    [destruct (String.eqb _ _) | destruct (contains _ _)]; simpl;
    try (left; split; reflexivity);
    right; (split; [reflexivity|]); exists m; (split; [exact Hm|]);
    unfold do_test; destruct (reporter st); reflexivity.
Qed.

(** X7. The checks that do not narrow never change the State: whenever
    [has_parsed_ast], [has_code] or [has_equal_ast] returns, with either
    style of Reporter and whether or not something was reported, it returns
    the very State it was given. *)
Theorem non_narrowing_checks_keep_state (st st' : State) :
  (outcome (has_parsed_ast st) = Ret st' -> st' = st)
  /\ (forall text msg fixed,
         outcome (has_code format_template re_search get_ast_path st text msg fixed) = Ret st' ->
         st' = st)
  /\ (forall msg sql start exact,
         outcome (has_equal_ast str_format repr get_ast_path st msg sql start exact)
           = Ret st' ->
         st' = st).
Proof.
  split; [|split].
  - unfold has_parsed_ast. simpl.
    destruct (isinstance_ParseError (student_ast st) || _); simpl;
      unfold do_test; destruct (reporter st); simpl; congruence.
  - intros text msg fixed. unfold has_code.
    destruct (if negb (isinstance_ParseError (student_ast st))
              then _get_text (ast_dispatcher st) (student_ast st) (student_code st)
              else Ret (student_code st)) as [t|e]; simpl; [|discriminate].
    destruct (format_template msg _) as [m|e]; simpl; [|discriminate].
    destruct (if fixed then Ret (contains text t) else re_search text t)
      as [found|e]; simpl; [|discriminate].
    destruct found; simpl;
      unfold do_test; destruct (reporter st); simpl; congruence.
  - intros msg sql start exact. unfold has_equal_ast.
    destruct (requires_ast_cases st) as [E | [E | (_ & _ & E)]]; rewrite E;
      simpl; try congruence.
    destruct (has_equal_ast_body_cases st msg sql start exact)
      as [[_ ->] | [_ (m & _ & ->)]]; simpl; [congruence|].
    destruct (reporter st); congruence.
Qed.

(** X8. [has_equal_ast] never hands the Reporter an empty message or
    [None]: what it reports is a non-empty string, the fallback standing in
    for an empty formatted message. *)
Theorem has_equal_ast_reports_nonempty (st : State) (msg : string)
    (sql : option string) (start : string) (exact : bool) (x : option string) :
  In x (reports (has_equal_ast str_format repr get_ast_path st msg sql start exact)) ->
  exists m, x = Some m /\ m <> "".
Proof.
  unfold has_equal_ast.
  destruct (requires_ast_cases st) as [E | [E | (_ & _ & E)]]; rewrite E;
    try (simpl; contradiction).
  destruct (has_equal_ast_body_cases st msg sql start exact)
    as [[_ ->] | [_ (m & Hm & ->)]]; simpl; [contradiction|].
  intros [<- | []]. eauto.
Qed.

(** X9. A check that passes with [exact=True] passes with [exact=False]
    on the same State and with the same snippet: equal representations
    contain one another. *)
Theorem has_equal_ast_exact_implies_contained (st : State) (msg : string)
    (sql : option string) (start : string) :
  has_equal_ast str_format repr get_ast_path st msg sql start true = ([], Ret st) ->
  has_equal_ast str_format repr get_ast_path st msg sql start false = ([], Ret st).
Proof.
  unfold has_equal_ast.
  destruct (requires_ast_cases st) as [E | [E | (_ & _ & E)]]; rewrite !E.
  - discriminate.
  - reflexivity.
  - intros Hbody.
    destruct (has_equal_ast_body_cases st msg sql start false)
      as [[_ H] | [Hfail _]]; [exact H|].
    exfalso.
    destruct (has_equal_ast_body_cases st msg sql start true)
      as [[Hpass _] | [_ (m & _ & Hm)]].
    + simpl in Hpass, Hfail. apply String.eqb_eq in Hpass.
      rewrite Hpass, contains_refl in Hfail. discriminate.
    + rewrite Hm in Hbody. discriminate Hbody.
Qed.



(** X12. [has_code] needs a focus it can take text from. When the student
    focus is neither a Parse Error marker nor an AST node ([None], a string,
    a list), it raises [AttributeError] before any search, reporting
    nothing, whatever the pattern and the mode. *)
Theorem has_code_focus_without_text (st : State) (text msg : string) (fixed : bool) :
  student_ast st <> VParseError ->
  (forall cls fs, student_ast st <> VNode cls fs) ->
  has_code format_template re_search get_ast_path st text msg fixed =
  ([], Raise (AttributeError "_get_text")).
Proof.
  intros Hpe Hnode. unfold has_code.
  destruct (student_ast st) eqn:E; try reflexivity.
  - congruence.
  - now elim (Hnode cls fields).
Qed.

(** X13. The empty pattern is found in every text: with [fixed=True] and
    [text=''], [has_code] passes on every State whose focus text can be
    recovered, for every template that formats. *)
Theorem has_code_empty_pattern (st : State) (msg stu_text m : string) :
  (student_ast st = VParseError /\ stu_text = student_code st)
  \/ (student_ast st <> VParseError
      /\ _get_text (ast_dispatcher st) (student_ast st) (student_code st)
         = Ret stu_text) ->
  format_template msg [("ast_path", get_ast_path st); ("text", "")] = Ret m ->
  has_code format_template re_search get_ast_path st "" msg true = ([], Ret st).
Proof.
  intros Htext Hfmt.
  rewrite (has_code_on_text format_template re_search get_ast_path st "" msg true
             stu_text m true Htext Hfmt).
  - reflexivity.
  - now rewrite contains_empty.
Qed.

(** X14. With [fixed=True], a pattern that passes makes every pattern
    occurring in it pass on the same State, with every template that
    formats for the shorter pattern. *)
Theorem has_code_fixed_subpattern (st : State) (text text' msg msg' m' : string) :
  substr text' text ->
  has_code format_template re_search get_ast_path st text msg true = ([], Ret st) ->
  format_template msg' [("ast_path", get_ast_path st); ("text", text')] = Ret m' ->
  has_code format_template re_search get_ast_path st text' msg' true = ([], Ret st).
Proof.
  intros Hsub Hpass Hfmt. unfold has_code in *.
  destruct (if negb (isinstance_ParseError (student_ast st))
            then _get_text (ast_dispatcher st) (student_ast st) (student_code st)
            else Ret (student_code st)) as [t|e]; simpl in *; [|discriminate].
  rewrite Hfmt. simpl.
  destruct (format_template msg _) as [m|e]; simpl in Hpass; [|discriminate].
  destruct (contains text t) eqn:Hfound; simpl in Hpass.
  - assert (H : contains text' t = true).
    { apply contains_spec. eapply substr_trans; [exact Hsub|].
      now apply contains_spec. }
    rewrite H. reflexivity.
  - unfold do_test in Hpass. destruct (reporter st); discriminate.
Qed.

End FurtherTextChecks.

Lemma has_equal_ast_reports_nonempty_witness :
  exists m,
    Some "Check the {ast_path}.{extra} ast_path=script extra= The checker expected to find `SELECT a FROM b` in there."
      = Some m /\ m <> "".
Proof.
  apply (has_equal_ast_reports_nonempty Demo.str_format Demo.repr Demo.get_ast_path
           (Demo.mk Demo.sel_x Demo.sel_a AbruptExit)
           has_equal_ast_msg None "sql_script" true).
  simpl. left. reflexivity.
Defined.

Lemma has_equal_ast_exact_implies_contained_witness :
  let st := Demo.mk Demo.sel_a Demo.sel_a AbruptExit in
  has_equal_ast Demo.str_format Demo.repr Demo.get_ast_path st
    has_equal_ast_msg None "sql_script" false = ([], Ret st).
Proof.
  intros st.
  apply (has_equal_ast_exact_implies_contained Demo.str_format Demo.repr
           Demo.get_ast_path st has_equal_ast_msg None "sql_script").
  reflexivity.
Defined.



Lemma has_code_focus_without_text_witness :
  has_code Demo.format_template Demo.re_search Demo.get_ast_path
    (Demo.mk VNone VNone AbruptExit) "SELECT" has_code_msg true =
  ([], Raise (AttributeError "_get_text")).
Proof.
  apply (has_code_focus_without_text Demo.format_template Demo.re_search
           Demo.get_ast_path (Demo.mk VNone VNone AbruptExit)
           "SELECT" has_code_msg true);
    discriminate.
Defined.

Lemma has_code_empty_pattern_witness :
  let st := Demo.mk Demo.sel_a VParseError AbruptExit in
  has_code Demo.format_template Demo.re_search Demo.get_ast_path st "" has_code_msg true
  = ([], Ret st).
Proof.
  intros st.
  apply (has_code_empty_pattern Demo.format_template Demo.re_search Demo.get_ast_path
           st has_code_msg "SELECT a FROM b"
           (Demo.str_format has_code_msg [("ast_path", "script"); ("text", "")])).
  - right. split; [discriminate | reflexivity].
  - reflexivity.
Defined.

Lemma has_code_fixed_subpattern_witness :
  let st := Demo.mk Demo.sel_a Demo.sel_a AbruptExit in
  has_code Demo.format_template Demo.re_search Demo.get_ast_path st "FROM" has_code_msg true
  = ([], Ret st).
Proof.
  intros st.
  apply (has_code_fixed_subpattern Demo.format_template Demo.re_search Demo.get_ast_path
           st "a FROM b" "FROM" has_code_msg has_code_msg
           (Demo.str_format has_code_msg [("ast_path", "script"); ("text", "FROM")])).
  - exists "a ", " b". reflexivity.
  - reflexivity.
  - reflexivity.
Defined.
